(** * The branching-model notebook of "05 Model Architectures" (answer key)

    The notebook is straight-line Python that builds objects of the Neon
    framework and calls a few of their methods.  It is embedded here as a
    program in a state-and-exception monad:
    - every object the framework constructs is allocated in a heap
      ([list obj], the object identity being its index), so that the sharing
      of one object by several others (the initializer, the branch markers)
      is visible;
    - every call into the framework is logged and may raise an exception,
      as decided by an abstract [framework] oracle; nothing in the notebook
      handles exceptions, so a raised exception ends the run;
    - the values a method returns come from the oracle as well. *)

From Stdlib Require Import String List QArith Bool Arith Lia.
Import ListNotations.
Open Scope nat_scope.
Open Scope string_scope.

Definition oid := nat.

(** Which half of MNIST an array comes from, and whether it holds the
    images or the labels. *)
Inductive split := Train | Test.
Inductive part := Inputs | Labels.

(** The framework objects the notebook creates. *)
Inductive obj :=
| Backend (batch_size : nat)
| MnistArray (s : split) (p : part)
| ArrayIterator (X y : oid) (nclass : nat)
| Gaussian (loc scale : Q)
| Rectlin
| Logistic (shortcut : bool)
| Softmax
| BranchNode (name : string)
| Affine (nout : nat) (name : string) (init activation : oid)
| SingleOutputTree (layers : list (list oid)) (alphas : list Q)
| Model (layers : oid)
| CrossEntropyMulti
| GeneralizedCost (costfunc : oid)
| Multicost (costs : list oid)
| GradientDescentMomentum (learning_rate momentum_coef : Q)
| Callbacks (model eval_set : oid) (eval_freq : nat).

(** The calls into the framework: constructors, [gen_backend],
    [load_mnist], and the methods [initialize], [__str__] (through
    [print]) and [fit]. *)
Inductive call :=
| New (o : obj)
| GenBackend (batch_size : nat)
| LoadMnist
| Initialize (model dataset cost : oid)
| PrintObj (o : oid)
| Fit (model dataset optimizer : oid) (num_epochs : nat) (cost callbacks : oid).

(** A Python value returned by a method. *)
Inductive pyval := PyNone | PyObj (o : oid).

Definition exn := string.

(** What the framework does, seen from the notebook: whether the [n]-th
    call raises, what the [n]-th call returns when it is a method, and
    the class count [load_mnist] reports. *)
Record framework := {
  fw_raises : nat -> call -> option exn;
  fw_returns : nat -> call -> pyval;
  fw_mnist_nclass : nat }.

(** The framework that raises nothing. *)
Definition ok_fw (fw : framework) : framework :=
  {| fw_raises := fun _ _ => None;
     fw_returns := fw_returns fw;
     fw_mnist_nclass := fw_mnist_nclass fw |}.

(** The same framework with other method results. *)
Definition with_returns (fw : framework) (r : nat -> call -> pyval) : framework :=
  {| fw_raises := fw_raises fw;
     fw_returns := r;
     fw_mnist_nclass := fw_mnist_nclass fw |}.

Record state := { heap : list obj; calls : list call }.

Definition init_state : state := {| heap := []; calls := [] |}.

Inductive result (A : Type) :=
| Ok (a : A) (s : state)
| Raised (e : exn) (s : state).
Arguments Ok {A} a s.
Arguments Raised {A} e s.

Definition M (A : Type) := state -> result A.

Definition ret {A} (a : A) : M A := fun s => Ok a s.

Definition bind {A B} (m : M A) (k : A -> M B) : M B :=
  fun s => match m s with
           | Ok a s' => k a s'
           | Raised e s' => Raised e s'
           end.

Notation "x <- c1 ;; c2" := (bind c1 (fun x => c2))
  (at level 61, c1 at next level, right associativity).
Notation "' p <- c1 ;; c2" := (bind c1 (fun x => match x with p => c2 end))
  (at level 61, p pattern, c1 at next level, right associativity).

(** Allocate an object; its identity is its position in the heap. *)
Definition alloc (o : obj) : M oid :=
  fun s => Ok (List.length (heap s)) {| heap := (heap s ++ [o])%list; calls := calls s |}.

(** Keyword dictionaries [dict(init=..., activation=...)]. *)
Record kwargs := { kw_init : oid; kw_activation : oid }.

(** The notebook's global variables after the last cell. *)
Record globals := {
  g_be : oid;
  g_X_train : oid; g_y_train : oid; g_X_test : oid; g_y_test : oid;
  g_nclass : nat;
  g_train_set : oid; g_valid_set : oid;
  g_init_norm : oid;
  g_normrelu : kwargs; g_normsigm : kwargs; g_normsoft : kwargs;
  g_b1 : oid; g_b2 : oid;
  g_p1 : list oid; g_p2 : list oid; g_p3 : list oid;
  g_alphas : list Q;
  g_model : oid;
  g_cost : oid;
  g_optimizer : oid;
  g_callbacks : oid }.

Section Notebook.

Variable fw : framework.

(** A call into the framework: logged, then it raises or goes on. *)
Definition invoke (c : call) : M nat :=
  fun s =>
    let n := List.length (calls s) in
    let s' := {| heap := heap s; calls := (calls s ++ [c])%list |} in
    match fw_raises fw n c with
    | Some e => Raised e s'
    | None => Ok n s'
    end.

(** A constructor call [Cls(...)]. *)
Definition new (o : obj) : M oid :=
  _ <- invoke (New o) ;; alloc o.

(** A method call; its value is what the framework returns. *)
Definition method (c : call) : M pyval :=
  n <- invoke c ;; ret (fw_returns fw n c).

Definition gen_backend (batch_size : nat) : M oid :=
  _ <- invoke (GenBackend batch_size) ;; alloc (Backend batch_size).

Definition load_mnist : M ((oid * oid) * (oid * oid) * nat) :=
  _ <- invoke LoadMnist ;;
  X_train <- alloc (MnistArray Train Inputs) ;;
  y_train <- alloc (MnistArray Train Labels) ;;
  X_test <- alloc (MnistArray Test Inputs) ;;
  y_test <- alloc (MnistArray Test Labels) ;;
  ret ((X_train, y_train), (X_test, y_test), fw_mnist_nclass fw).

(** The code cells, in order. *)
Definition notebook : M globals :=
  (* be = gen_backend(batch_size=128); load the data *)
  be <- gen_backend 128 ;;
  '((X_train, y_train), (X_test, y_test), nclass) <- load_mnist ;;
  train_set <- new (ArrayIterator X_train y_train nclass) ;;
  valid_set <- new (ArrayIterator X_test y_test nclass) ;;
  (* common parameters *)
  init_norm <- new (Gaussian 0.0 0.01) ;;
  rl <- new Rectlin ;;
  let normrelu := {| kw_init := init_norm; kw_activation := rl |} in
  lg <- new (Logistic true) ;;
  let normsigm := {| kw_init := init_norm; kw_activation := lg |} in
  sm <- new Softmax ;;
  let normsoft := {| kw_init := init_norm; kw_activation := sm |} in
  (* branch nodes *)
  b1 <- new (BranchNode "b1") ;;
  b2 <- new (BranchNode "b2") ;;
  (* main trunk (cost1) *)
  m_l1 <- new (Affine 100 "m_l1" (kw_init normrelu) (kw_activation normrelu)) ;;
  m_l2 <- new (Affine 32 "m_l2" (kw_init normrelu) (kw_activation normrelu)) ;;
  m_l3 <- new (Affine 16 "m_l3" (kw_init normrelu) (kw_activation normrelu)) ;;
  m_l4 <- new (Affine 10 "m_l4" (kw_init normsoft) (kw_activation normsoft)) ;;
  let p1 := [m_l1; b1; m_l2; m_l3; b2; m_l4] in
  (* branch (cost2) *)
  b1_l1 <- new (Affine 16 "b1_l1" (kw_init normrelu) (kw_activation normrelu)) ;;
  b1_l2 <- new (Affine 10 "b1_l2" (kw_init normsoft) (kw_activation normsoft)) ;;
  let p2 := [b1; b1_l1; b1_l2] in
  (* branch (cost3) *)
  b2_l1 <- new (Affine 16 "b2_l1" (kw_init normrelu) (kw_activation normrelu)) ;;
  b2_l2 <- new (Affine 10 "b2_l2" (kw_init normsoft) (kw_activation normsoft)) ;;
  let p3 := [b2; b2_l1; b2_l2] in
  (* the tree *)
  let alphas := [1; 0.25; 0.25]%Q in
  tree <- new (SingleOutputTree [p1; p2; p3] alphas) ;;
  model <- new (Model tree) ;;
  (* cost = Multicost(costs=[GeneralizedCost(costfunc=CrossEntropyMulti()), ...]) *)
  ce1 <- new CrossEntropyMulti ;;
  gc1 <- new (GeneralizedCost ce1) ;;
  ce2 <- new CrossEntropyMulti ;;
  gc2 <- new (GeneralizedCost ce2) ;;
  ce3 <- new CrossEntropyMulti ;;
  gc3 <- new (GeneralizedCost ce3) ;;
  cost <- new (Multicost [gc1; gc2; gc3]) ;;
  (* model.initialize(train_set, cost); print model *)
  _ <- method (Initialize model train_set cost) ;;
  _ <- method (PrintObj model) ;;
  (* optimizer, callbacks, fit *)
  optimizer <- new (GradientDescentMomentum 0.1 0.9) ;;
  callbacks <- new (Callbacks model valid_set 1) ;;
  _ <- method (Fit model train_set optimizer 10 cost callbacks) ;;
  ret {| g_be := be;
         g_X_train := X_train; g_y_train := y_train;
         g_X_test := X_test; g_y_test := y_test;
         g_nclass := nclass;
         g_train_set := train_set; g_valid_set := valid_set;
         g_init_norm := init_norm;
         g_normrelu := normrelu; g_normsigm := normsigm; g_normsoft := normsoft;
         g_b1 := b1; g_b2 := b2;
         g_p1 := p1; g_p2 := p2; g_p3 := p3;
         g_alphas := alphas;
         g_model := model; g_cost := cost;
         g_optimizer := optimizer; g_callbacks := callbacks |}.

End Notebook.

Definition run (fw : framework) : result globals := notebook fw init_state.

(** ** Reading the final heap *)

Definition lookup (h : list obj) (o : oid) : option obj := nth_error h o.

Definition is_marker (h : list obj) (o : oid) : bool :=
  match lookup h o with Some (BranchNode _) => true | _ => false end.

(** The paths and the leaf weights of the tree a [Model] was built on. *)
Definition tree_of (h : list obj) (m : oid) : option (list (list oid) * list Q) :=
  match lookup h m with
  | Some (Model t) =>
      match lookup h t with
      | Some (SingleOutputTree ps al) => Some (ps, al)
      | _ => None
      end
  | _ => None
  end.

(** The per-leaf costs of a [Multicost]. *)
Definition costs_of (h : list obj) (c : oid) : option (list oid) :=
  match lookup h c with Some (Multicost cs) => Some cs | _ => None end.

(** The output widths of the [Affine] layers of a path, in order. *)
Definition affine_widths (h : list obj) (p : list oid) : list nat :=
  flat_map (fun o => match lookup h o with
                     | Some (Affine n _ _ _) => [n]
                     | _ => []
                     end) p.

(** The output width of the terminal layer of a path. *)
Definition terminal_nout (h : list obj) (p : list oid) : option nat :=
  match rev p with
  | o :: _ => match lookup h o with Some (Affine n _ _ _) => Some n | _ => None end
  | [] => None
  end.

Definition iterator_nclass (h : list obj) (it : oid) : option nat :=
  match lookup h it with Some (ArrayIterator _ _ n) => Some n | _ => None end.

Definition is_affine (h : list obj) (o : oid) : bool :=
  match lookup h o with Some (Affine _ _ _ _) => true | _ => false end.

(** Position of the first occurrence of [o] in a path. *)
Fixpoint index_of (o : oid) (p : list oid) : option nat :=
  match p with
  | [] => None
  | x :: p' => if Nat.eqb x o then Some 0 else option_map S (index_of o p')
  end.

(** The positions of the paths that contain [m]. *)
Fixpoint paths_with_from (n : nat) (ps : list (list oid)) (m : oid) : list nat :=
  match ps with
  | [] => []
  | p :: ps' =>
      if existsb (Nat.eqb m) p then n :: paths_with_from (S n) ps' m
      else paths_with_from (S n) ps' m
  end.

Definition paths_with (ps : list (list oid)) (m : oid) : list nat :=
  paths_with_from 0 ps m.

(** The branch markers referenced by more than one path. *)
Definition shared_markers (h : list obj) (ps : list (list oid)) : list oid :=
  nodup Nat.eq_dec
    (filter (fun m => is_marker h m && Nat.leb 2 (List.length (paths_with ps m)))
       (concat ps)).

(** Modelled from the spec: the shape configuration that [Model.initialize]
    of the external framework performs ("bind the model to the dataset to
    resolve per-layer tensor shapes").  The first path is configured from
    the input width; an [Affine] layer turns any input width into [nout]
    units; a branch marker passes its input on and records it; every later
    path must start at a recorded marker and takes its input from there.
    Anything else is a shape error ([None]).  The result is the output width
    of each path, in path order. *)
Fixpoint config_layers (h : list obj) (nin : nat) (marks : list (oid * nat))
    (p : list oid) : option (nat * list (oid * nat)) :=
  match p with
  | [] => Some (nin, marks)
  | o :: p' =>
      match lookup h o with
      | Some (Affine nout _ _ _) => config_layers h nout marks p'
      | Some (BranchNode _) => config_layers h nin ((o, nin) :: marks) p'
      | _ => None
      end
  end.

Fixpoint mark_width (marks : list (oid * nat)) (o : oid) : option nat :=
  match marks with
  | [] => None
  | (m, w) :: ms => if Nat.eqb m o then Some w else mark_width ms o
  end.

Fixpoint config_branches (h : list obj) (marks : list (oid * nat))
    (ps : list (list oid)) : option (list nat) :=
  match ps with
  | [] => Some []
  | (o :: p') :: ps' =>
      match is_marker h o, mark_width marks o with
      | true, Some w =>
          match config_layers h w marks p' with
          | Some (nout, marks') =>
              option_map (cons nout) (config_branches h marks' ps')
          | None => None
          end
      | _, _ => None
      end
  | [] :: _ => None
  end.

Definition initialize_tree (h : list obj) (nin : nat) (ps : list (list oid))
    : option (list nat) :=
  match ps with
  | [] => None
  | trunk :: bs =>
      match config_layers h nin [] trunk with
      | Some (nout, marks) => option_map (cons nout) (config_branches h marks bs)
      | None => None
      end
  end.

(** The terminal layer of each path. *)
Definition terminal_layers (ps : list (list oid)) : list oid :=
  flat_map (fun p => match rev p with o :: _ => [o] | [] => [] end) ps.

Definition is_fit (c : call) : bool :=
  match c with Fit _ _ _ _ _ _ => true | _ => false end.

Definition is_gaussian (o : obj) : bool :=
  match o with Gaussian _ _ => true | _ => false end.

(** The objects an object refers to. *)
Definition refs (o : obj) : list oid :=
  match o with
  | ArrayIterator X y _ => [X; y]
  | Affine _ _ init act => [init; act]
  | SingleOutputTree ps _ => concat ps
  | Model t => [t]
  | GeneralizedCost c => [c]
  | Multicost cs => cs
  | Callbacks m e _ => [m; e]
  | _ => []
  end.

(** ** Exceptions *)

Definition outcome {A} (r : result A) : option exn :=
  match r with Ok _ _ => None | Raised e _ => Some e end.

Definition calls_of {A} (r : result A) : list call :=
  match r with Ok _ s | Raised _ s => calls s end.

(** Running a fixed sequence of calls with no handler: the calls are made
    in order up to the first one that raises, whose exception is the
    result; the [n] counts the calls made before. *)
Fixpoint propagate (fw : framework) (n : nat) (cs : list call)
    : option exn * list call :=
  match cs with
  | [] => (None, [])
  | c :: cs' =>
      match fw_raises fw n c with
      | Some e => (Some e, [c])
      | None => let '(r, done) := propagate fw (S n) cs' in (r, c :: done)
      end
  end.

Definition heap_of {A} (r : result A) : list obj :=
  match r with Ok _ s | Raised _ s => heap s end.



(** A framework that raises nothing and reports the 10 classes of MNIST. *)
Definition fw0 : framework :=
  {| fw_raises := fun _ _ => None; fw_returns := fun _ _ => PyNone;
     fw_mnist_nclass := 10 |}.

Ltac unfold_run :=
  unfold run; cbv [notebook bind ret invoke new method alloc gen_backend
                   load_mnist init_state ok_fw with_returns]; cbv.

(** A successful run is the run of the framework that raises nothing. *)
Lemma run_ok_clean (fw : framework) (g : globals) (s : state) :
  run fw = Ok g s -> run (ok_fw fw) = Ok g s.
Proof.
  destruct fw as [raises returns nclass].
  unfold_run. intro H.
  repeat match type of H with
         | context [raises ?n ?c] =>
             destruct (raises n c); cbv in H; [discriminate H|]
         end.
  exact H.
Qed.

Ltac settle_run H :=
  apply run_ok_clean in H; unfold run in H;
  cbv [notebook bind ret invoke new method alloc gen_backend
       load_mnist init_state ok_fw with_returns] in H; cbv in H;
  injection H as <- <-; cbn.


Ltac witness_for thm :=
  do 2 eexists; split;
  [unfold run; vm_compute; reflexivity | apply thm; unfold run; vm_compute; reflexivity].

(** ** The claims *)

(** C1: in the notebook's topology, the number of paths given to
    [SingleOutputTree], the number of costs given to [Multicost] and the
    number of leaf weights [alphas] are equal, and each is 3. *)
Theorem leaf_counts_agree (fw : framework) (g : globals) (s : state)
    (H : run fw = Ok g s) :
  exists ps cs,
    tree_of (heap s) (g_model g) = Some (ps, g_alphas g) /\
    costs_of (heap s) (g_cost g) = Some cs /\
    length ps = length cs /\ length cs = length (g_alphas g) /\
    length (g_alphas g) = 3.
Proof. settle_run H. do 2 eexists; repeat split. Qed.

Lemma leaf_counts_agree_witness :
  exists g s, run fw0 = Ok g s /\
  exists ps cs,
    tree_of (heap s) (g_model g) = Some (ps, g_alphas g) /\
    costs_of (heap s) (g_cost g) = Some cs /\
    length ps = length cs /\ length cs = length (g_alphas g) /\
    length (g_alphas g) = 3.
Proof. witness_for (leaf_counts_agree fw0). Defined.

(** C3: the branch markers referenced by more than one path are exactly
    [b1] (by the trunk and the second path) and [b2] (by the trunk and the
    third path); every path that references one lists it once, followed by
    the [Affine] layer that consumes its output, and in every path after
    the trunk the marker is the first element. *)
Theorem markers_precede_consumers (fw : framework) (g : globals) (s : state)
    (H : run fw = Ok g s) :
  exists ps,
    tree_of (heap s) (g_model g) = Some (ps, g_alphas g) /\
    shared_markers (heap s) ps = [g_b1 g; g_b2 g] /\
    paths_with ps (g_b1 g) = [0; 1] /\ paths_with ps (g_b2 g) = [0; 2] /\
    forall m, In m (shared_markers (heap s) ps) ->
    forall i p, nth_error ps i = Some p -> In m p ->
      exists k c,
        index_of m p = Some k /\ count_occ Nat.eq_dec p m = 1 /\
        nth_error p (S k) = Some c /\ is_affine (heap s) c = true /\
        (i <> 0 -> k = 0).
Proof.
  settle_run H. eexists; split; [reflexivity|].
  split; [reflexivity|]. split; [reflexivity|]. split; [reflexivity|].
  intros m Hm i p Hp Hin. cbn in Hm.
  destruct Hm as [<- | [<- | []]];
    destruct i as [| [| [| i]]]; cbn in Hp; try discriminate;
    try (destruct i; discriminate Hp);
    injection Hp as <-; cbn in Hin;
    first [ exfalso; intuition discriminate
          | do 2 eexists; split; [reflexivity|]; split; [reflexivity|];
            split; [reflexivity|]; split; [reflexivity|]; intros; lia ].
Qed.

Lemma markers_precede_consumers_witness :
  exists g s, run fw0 = Ok g s /\
  exists ps,
    tree_of (heap s) (g_model g) = Some (ps, g_alphas g) /\
    shared_markers (heap s) ps = [g_b1 g; g_b2 g] /\
    paths_with ps (g_b1 g) = [0; 1] /\ paths_with ps (g_b2 g) = [0; 2] /\
    forall m, In m (shared_markers (heap s) ps) ->
    forall i p, nth_error ps i = Some p -> In m p ->
      exists k c,
        index_of m p = Some k /\ count_occ Nat.eq_dec p m = 1 /\
        nth_error p (S k) = Some c /\ is_affine (heap s) c = true /\
        (i <> 0 -> k = 0).
Proof. witness_for (markers_precede_consumers fw0). Defined.

(** C4: the trunk [p1] is the first path given to the tree builder; it
    starts from the input with an [Affine] layer and holds every branch
    marker the other paths use; each later path ([p2], [p3]) starts with a
    branch marker of the trunk, and its other elements are not in the
    trunk. *)
Theorem trunk_first (fw : framework) (g : globals) (s : state)
    (H : run fw = Ok g s) :
  tree_of (heap s) (g_model g) = Some ([g_p1 g; g_p2 g; g_p3 g], g_alphas g) /\
  (exists o p', g_p1 g = o :: p' /\ is_affine (heap s) o = true) /\
  (forall p, In p [g_p2 g; g_p3 g] ->
     exists m p', p = m :: p' /\ is_marker (heap s) m = true /\ In m (g_p1 g) /\
       forall o, In o p' -> ~ In o (g_p1 g) /\ is_marker (heap s) o = false).
Proof.
  settle_run H. split; [reflexivity|]. split; [do 2 eexists; split; reflexivity|].
  intros p [<- | [<- | []]];
    (do 2 eexists; split; [reflexivity|];
     split; [reflexivity|]; split; [cbn; tauto|];
     intros o Ho; cbn in Ho;
     repeat (destruct Ho as [<- | Ho];
             [split; [cbn; intuition discriminate | reflexivity]|]);
     destruct Ho).
Qed.

Lemma trunk_first_witness :
  exists g s, run fw0 = Ok g s /\
  tree_of (heap s) (g_model g) = Some ([g_p1 g; g_p2 g; g_p3 g], g_alphas g) /\
  (exists o p', g_p1 g = o :: p' /\ is_affine (heap s) o = true) /\
  (forall p, In p [g_p2 g; g_p3 g] ->
     exists m p', p = m :: p' /\ is_marker (heap s) m = true /\ In m (g_p1 g) /\
       forall o, In o p' -> ~ In o (g_p1 g) /\ is_marker (heap s) o = false).
Proof. witness_for (trunk_first fw0). Defined.

(** C5: the leaf weights given to the tree builder are the literal list
    [1, 0.25, 0.25], one per path, each of them non-negative. *)
Theorem alphas_literal (fw : framework) (g : globals) (s : state)
    (H : run fw = Ok g s) :
  exists ps,
    tree_of (heap s) (g_model g) = Some (ps, g_alphas g) /\
    g_alphas g = [1; 0.25; 0.25]%Q /\
    length (g_alphas g) = length ps /\
    Forall (fun a => 0 <= a)%Q (g_alphas g).
Proof.
  settle_run H. eexists; split; [reflexivity|]. split; [reflexivity|].
  split; [reflexivity|].
  repeat constructor; apply Qle_bool_imp_le; reflexivity.
Qed.

Lemma alphas_literal_witness :
  exists g s, run fw0 = Ok g s /\
  exists ps,
    tree_of (heap s) (g_model g) = Some (ps, g_alphas g) /\
    g_alphas g = [1; 0.25; 0.25]%Q /\
    length (g_alphas g) = length ps /\
    Forall (fun a => 0 <= a)%Q (g_alphas g).
Proof. witness_for (alphas_literal fw0). Defined.

(** C6: nothing in the notebook handles an exception.  Whatever the
    framework does, the notebook makes the calls of its error-free run in
    order up to the first one that raises, makes no call after it, and ends
    with that exception. *)
Theorem errors_propagate (fw : framework) :
  (outcome (run fw), calls_of (run fw)) =
  propagate fw 0 (calls_of (run (ok_fw fw))).
Proof.
  destruct fw as [raises returns nclass].
  unfold_run.
  repeat match goal with
         | |- context [raises ?n ?c] => destruct (raises n c); cbv; [reflexivity|]
         end.
  reflexivity.
Qed.

(** C2: with MNIST's 10 classes, the trunk's layers have 100, 32, 16 and
    10 units and each branch 16 then 10; [initialize] is called with the
    training iterator and the run goes through; the shapes resolve from any
    input width; there are three distinct terminal layers, one per path,
    each an [Affine] layer of [nclass] = 10 units. *)
Theorem tree_shapes (fw : framework) (g : globals) (s : state)
    (Hn : fw_mnist_nclass fw = 10) (H : run fw = Ok g s) :
  exists ps,
    tree_of (heap s) (g_model g) = Some (ps, g_alphas g) /\
    ps = [g_p1 g; g_p2 g; g_p3 g] /\
    affine_widths (heap s) (g_p1 g) = [100; 32; 16; 10] /\
    affine_widths (heap s) (g_p2 g) = [16; 10] /\
    affine_widths (heap s) (g_p3 g) = [16; 10] /\
    In (Initialize (g_model g) (g_train_set g) (g_cost g)) (calls s) /\
    iterator_nclass (heap s) (g_train_set g) = Some (g_nclass g) /\
    g_nclass g = 10 /\
    (forall nin, initialize_tree (heap s) nin ps =
                 Some [g_nclass g; g_nclass g; g_nclass g]) /\
    length (terminal_layers ps) = 3 /\ NoDup (terminal_layers ps) /\
    Forall (fun o => exists nm init act,
              lookup (heap s) o = Some (Affine (g_nclass g) nm init act))
           (terminal_layers ps).
Proof.
  destruct fw as [raises returns nclass]; cbn in Hn; subst nclass.
  settle_run H. eexists.
  do 9 (split; [first [reflexivity | cbn; tauto | intros; reflexivity] |]).
  split; [reflexivity|]. split.
  - repeat constructor; cbn; intuition discriminate.
  - repeat constructor; do 3 eexists; reflexivity.
Qed.

Lemma tree_shapes_witness :
  exists g s, run fw0 = Ok g s /\
  exists ps,
    tree_of (heap s) (g_model g) = Some (ps, g_alphas g) /\
    ps = [g_p1 g; g_p2 g; g_p3 g] /\
    affine_widths (heap s) (g_p1 g) = [100; 32; 16; 10] /\
    affine_widths (heap s) (g_p2 g) = [16; 10] /\
    affine_widths (heap s) (g_p3 g) = [16; 10] /\
    In (Initialize (g_model g) (g_train_set g) (g_cost g)) (calls s) /\
    iterator_nclass (heap s) (g_train_set g) = Some (g_nclass g) /\
    g_nclass g = 10 /\
    (forall nin, initialize_tree (heap s) nin ps =
                 Some [g_nclass g; g_nclass g; g_nclass g]) /\
    length (terminal_layers ps) = 3 /\ NoDup (terminal_layers ps) /\
    Forall (fun o => exists nm init act,
              lookup (heap s) o = Some (Affine (g_nclass g) nm init act))
           (terminal_layers ps).
Proof.
  do 2 eexists; split; [unfold run; vm_compute; reflexivity|].
  apply (tree_shapes fw0); [reflexivity | unfold run; vm_compute; reflexivity].
Defined.

(** What the framework's methods return never changes the run. *)
Lemma run_with_returns (fw : framework) (r : nat -> call -> pyval) :
  run (with_returns fw r) = run fw.
Proof.
  destruct fw as [raises returns nclass]. unfold_run.
  repeat match goal with
         | |- context [raises ?n ?c] => destruct (raises n c); cbv; [reflexivity|]
         end.
  reflexivity.
Qed.

(** C7: the last call of the notebook, and its only [fit], trains the
    model on the training iterator for 10 epochs with
    [GradientDescentMomentum(0.1, momentum_coef=0.9)], the costs and
    [Callbacks(model, eval_set=valid_set, eval_freq=1)]; the training
    iterator reads the training split and the validation iterator the test
    split; the values returned by [fit] (and any other method) are not
    used: the run is the same whatever they are. *)
Theorem fit_configuration (fw : framework) (g : globals) (s : state)
    (H : run fw = Ok g s) :
  last (calls s) LoadMnist =
    Fit (g_model g) (g_train_set g) (g_optimizer g) 10 (g_cost g) (g_callbacks g) /\
  length (filter is_fit (calls s)) = 1 /\
  lookup (heap s) (g_optimizer g) = Some (GradientDescentMomentum 0.1 0.9) /\
  lookup (heap s) (g_callbacks g) = Some (Callbacks (g_model g) (g_valid_set g) 1) /\
  lookup (heap s) (g_train_set g) =
    Some (ArrayIterator (g_X_train g) (g_y_train g) (g_nclass g)) /\
  lookup (heap s) (g_valid_set g) =
    Some (ArrayIterator (g_X_test g) (g_y_test g) (g_nclass g)) /\
  lookup (heap s) (g_X_train g) = Some (MnistArray Train Inputs) /\
  lookup (heap s) (g_y_train g) = Some (MnistArray Train Labels) /\
  lookup (heap s) (g_X_test g) = Some (MnistArray Test Inputs) /\
  lookup (heap s) (g_y_test g) = Some (MnistArray Test Labels) /\
  g_train_set g <> g_valid_set g /\
  (forall r, run (with_returns fw r) = Ok g s).
Proof.
  assert (Hr : forall r, run (with_returns fw r) = Ok g s)
    by (intro r; rewrite run_with_returns; exact H).
  settle_run H.
  do 10 (split; [reflexivity|]). split; [discriminate | exact Hr].
Qed.

Lemma fit_configuration_witness :
  exists g s, run fw0 = Ok g s /\
  last (calls s) LoadMnist =
    Fit (g_model g) (g_train_set g) (g_optimizer g) 10 (g_cost g) (g_callbacks g) /\
  length (filter is_fit (calls s)) = 1 /\
  lookup (heap s) (g_optimizer g) = Some (GradientDescentMomentum 0.1 0.9) /\
  lookup (heap s) (g_callbacks g) = Some (Callbacks (g_model g) (g_valid_set g) 1) /\
  lookup (heap s) (g_train_set g) =
    Some (ArrayIterator (g_X_train g) (g_y_train g) (g_nclass g)) /\
  lookup (heap s) (g_valid_set g) =
    Some (ArrayIterator (g_X_test g) (g_y_test g) (g_nclass g)) /\
  lookup (heap s) (g_X_train g) = Some (MnistArray Train Inputs) /\
  lookup (heap s) (g_y_train g) = Some (MnistArray Train Labels) /\
  lookup (heap s) (g_X_test g) = Some (MnistArray Test Inputs) /\
  lookup (heap s) (g_y_test g) = Some (MnistArray Test Labels) /\
  g_train_set g <> g_valid_set g /\
  (forall r, run (with_returns fw0 r) = Ok g s).
Proof. witness_for (fit_configuration fw0). Defined.

(** Walk through the members of a concrete list hypothesis, solving each
    case with [tac]. *)
Ltac each_member Hin tac :=
  cbn in Hin; repeat (destruct Hin as [<- | Hin]; [tac |]); destruct Hin.

(** C8: along every path, each [Affine] layer but the last has the
    [Rectlin] activation and the last one the [Softmax] activation; the
    [Logistic] activation of [normsigm] is referred to by no object, so no
    layer uses [normsigm]. *)
Theorem activations_by_position (fw : framework) (g : globals) (s : state)
    (H : run fw = Ok g s) :
  exists ps,
    tree_of (heap s) (g_model g) = Some (ps, g_alphas g) /\
    (forall p, In p ps -> forall k o, nth_error p k = Some o ->
       forall n nm init act, lookup (heap s) o = Some (Affine n nm init act) ->
       lookup (heap s) act =
         Some (if Nat.eqb (S k) (length p) then Softmax else Rectlin)) /\
    lookup (heap s) (kw_activation (g_normsigm g)) = Some (Logistic true) /\
    Forall (fun ob => ~ In (kw_activation (g_normsigm g)) (refs ob)) (heap s).
Proof.
  settle_run H. eexists. split; [reflexivity|]. split; [|split; [reflexivity|]].
  - intros p Hp k o Hk n nm init act Ho.
    each_member Hp
      ltac:(repeat (destruct k as [| k]; cbn in Hk;
                    [injection Hk as <-; cbn in Ho;
                     first [discriminate Ho | injection Ho as <- <- <- <-; reflexivity] |]);
            destruct k; discriminate Hk).
  - repeat constructor; cbn; intuition discriminate.
Qed.

Lemma activations_by_position_witness :
  exists g s, run fw0 = Ok g s /\
  exists ps,
    tree_of (heap s) (g_model g) = Some (ps, g_alphas g) /\
    (forall p, In p ps -> forall k o, nth_error p k = Some o ->
       forall n nm init act, lookup (heap s) o = Some (Affine n nm init act) ->
       lookup (heap s) act =
         Some (if Nat.eqb (S k) (length p) then Softmax else Rectlin)) /\
    lookup (heap s) (kw_activation (g_normsigm g)) = Some (Logistic true) /\
    Forall (fun ob => ~ In (kw_activation (g_normsigm g)) (refs ob)) (heap s).
Proof. witness_for (activations_by_position fw0). Defined.

(** C9: one [Gaussian(loc=0.0, scale=0.01)] object exists, [init_norm];
    the three option dictionaries carry it, and every [Affine] layer
    created has it as its initializer. *)
Theorem single_initializer (fw : framework) (g : globals) (s : state)
    (H : run fw = Ok g s) :
  lookup (heap s) (g_init_norm g) = Some (Gaussian 0.0 0.01) /\
  length (filter is_gaussian (heap s)) = 1 /\
  kw_init (g_normrelu g) = g_init_norm g /\
  kw_init (g_normsigm g) = g_init_norm g /\
  kw_init (g_normsoft g) = g_init_norm g /\
  Forall (fun ob => match ob with
                    | Affine _ _ init _ => init = g_init_norm g
                    | _ => True
                    end) (heap s).
Proof.
  settle_run H. do 5 (split; [reflexivity|]). repeat constructor.
Qed.

Lemma single_initializer_witness :
  exists g s, run fw0 = Ok g s /\
  lookup (heap s) (g_init_norm g) = Some (Gaussian 0.0 0.01) /\
  length (filter is_gaussian (heap s)) = 1 /\
  kw_init (g_normrelu g) = g_init_norm g /\
  kw_init (g_normsigm g) = g_init_norm g /\
  kw_init (g_normsoft g) = g_init_norm g /\
  Forall (fun ob => match ob with
                    | Affine _ _ init _ => init = g_init_norm g
                    | _ => True
                    end) (heap s).
Proof. witness_for (single_initializer fw0). Defined.

(** C10: [b1] is in the trunk and the second path only, [b2] in the trunk
    and the third path only; every branch marker of the tree is in the
    trunk and in exactly one other path, and in no path twice; the three
    costs are each a [GeneralizedCost] of a [CrossEntropyMulti]. *)
Theorem marker_sharing (fw : framework) (g : globals) (s : state)
    (H : run fw = Ok g s) :
  exists ps cs,
    tree_of (heap s) (g_model g) = Some (ps, g_alphas g) /\
    costs_of (heap s) (g_cost g) = Some cs /\
    paths_with ps (g_b1 g) = [0; 1] /\ paths_with ps (g_b2 g) = [0; 2] /\
    (forall m, In m (concat ps) -> is_marker (heap s) m = true ->
       (exists j, paths_with ps m = [0; j] /\ j <> 0) /\
       forall p, In p ps -> count_occ Nat.eq_dec p m <= 1) /\
    length cs = 3 /\
    Forall (fun c => exists ce, lookup (heap s) c = Some (GeneralizedCost ce) /\
                                lookup (heap s) ce = Some CrossEntropyMulti) cs.
Proof.
  settle_run H. do 2 eexists.
  do 4 (split; [reflexivity|]). split; [|split; [reflexivity|]].
  - intros m Hm Hmk.
    each_member Hm
      ltac:(first [ discriminate Hmk
                  | split; [eexists; split; [reflexivity | discriminate] |];
                    intros p Hp; each_member Hp ltac:(cbn; lia) ]).
  - repeat constructor; eexists; split; reflexivity.
Qed.

Lemma marker_sharing_witness :
  exists g s, run fw0 = Ok g s /\
  exists ps cs,
    tree_of (heap s) (g_model g) = Some (ps, g_alphas g) /\
    costs_of (heap s) (g_cost g) = Some cs /\
    paths_with ps (g_b1 g) = [0; 1] /\ paths_with ps (g_b2 g) = [0; 2] /\
    (forall m, In m (concat ps) -> is_marker (heap s) m = true ->
       (exists j, paths_with ps m = [0; j] /\ j <> 0) /\
       forall p, In p ps -> count_occ Nat.eq_dec p m <= 1) /\
    length cs = 3 /\
    Forall (fun c => exists ce, lookup (heap s) c = Some (GeneralizedCost ce) /\
                                lookup (heap s) ce = Some CrossEntropyMulti) cs.
Proof. witness_for (marker_sharing fw0). Defined.

(** ** Further properties of the notebook *)

(** Splitting on every exception the framework may raise. *)
Ltac split_raises raises close :=
  repeat match goal with
         | |- context [raises ?n ?c] => destruct (raises n c); cbv; [close|]
         end;
  close.

Lemma run_propagate (fw : framework) :
  (outcome (run fw), calls_of (run fw)) =
  propagate fw 0 (calls_of (run (ok_fw fw))).
Proof.
  destruct fw as [raises returns nclass]. unfold_run.
  split_raises raises ltac:(reflexivity).
Qed.

Lemma run_heap_prefix (fw : framework) :
  exists k, heap_of (run fw) = firstn k (heap_of (run (ok_fw fw))).
Proof.
  destruct fw as [raises returns nclass]. unfold_run.
  split_raises raises
    ltac:(idtac; match goal with
                 | |- exists k, ?h = _ => exists (List.length h); reflexivity
                 end).
Qed.




(** Whatever the framework raises, the objects in existence when the
    notebook stops are the first ones of the error-free run, in the same
    order: a failing run creates nothing the full run would not. *)
Theorem stopped_heap_is_prefix (fw : framework) :
  exists k, heap_of (run fw) = firstn k (heap_of (run (ok_fw fw))).
Proof. exact (run_heap_prefix fw). Qed.



Lemma propagate_prefix (fw : framework) (n : nat) (cs : list call) :
  exists rest, cs = (snd (propagate fw n cs) ++ rest)%list.
Proof.
  revert n; induction cs as [| c cs IH]; intro n; cbn.
  - exists []; reflexivity.
  - destruct (fw_raises fw n c).
    + exists cs; reflexivity.
    + destruct (IH (S n)) as [rest Hr].
      destruct (propagate fw (S n) cs) as [r dn]; cbn in *.
      exists rest; rewrite Hr at 1; reflexivity.
Qed.

Lemma propagate_normal (fw : framework) (n : nat) (cs : list call) :
  forall i c, nth_error (snd (propagate fw n cs)) i = Some c ->
  S i < List.length (snd (propagate fw n cs)) -> fw_raises fw (n + i) c = None.
Proof.
  revert n; induction cs as [| c' cs IH]; intros n i c Hi Hl; cbn in *.
  - destruct i; discriminate Hi.
  - destruct (fw_raises fw n c') eqn:E.
    + cbn in Hl; lia.
    + specialize (IH (S n)).
      destruct (propagate fw (S n) cs) as [r dn]; cbn in *.
      destruct i as [| i]; cbn in Hi.
      * injection Hi as <-. rewrite Nat.add_0_r. exact E.
      * rewrite <- Nat.add_succ_comm. apply IH; [exact Hi | lia].
Qed.

Lemma clean_fit_position (fw : framework) (n m d o e co cb : nat) :
  nth_error (calls_of (run (ok_fw fw))) n = Some (Fit m d o e co cb) ->
  n = 31 /\ m = 22 /\ d = 5 /\ co = 29.
Proof.
  destruct fw as [raises returns nclass]. intro H.
  unfold run in H; cbv [notebook bind ret invoke new method alloc gen_backend
                        load_mnist init_state ok_fw with_returns] in H; cbv in H.
  do 32 (destruct n as [| n];
         [cbn in H; first [discriminate H
                          | injection H as <- <- _ _ <- _; repeat split] |]).
  destruct n; discriminate H.
Qed.

Lemma clean_initialize_position (fw : framework) :
  nth_error (calls_of (run (ok_fw fw))) 27 = Some (Initialize 22 5 29).
Proof. destruct fw as [raises returns nclass]. unfold_run. reflexivity. Qed.

(** Whatever the framework raises, if the notebook calls [fit], it has
    called [initialize] before on the same model, dataset and cost, and
    that call returned normally. *)
Theorem fit_after_initialize (fw : framework) (n m d o e co cb : nat)
    (H : nth_error (calls_of (run fw)) n = Some (Fit m d o e co cb)) :
  exists k, k < n /\
    nth_error (calls_of (run fw)) k = Some (Initialize m d co) /\
    fw_raises fw k (Initialize m d co) = None.
Proof.
  assert (Hc : calls_of (run fw) = snd (propagate fw 0 (calls_of (run (ok_fw fw)))))
    by (rewrite <- run_propagate; reflexivity).
  rewrite Hc in *.
  destruct (propagate_prefix fw 0 (calls_of (run (ok_fw fw)))) as [rest Hr].
  set (dn := snd (propagate fw 0 (calls_of (run (ok_fw fw))))) in *.
  assert (Hn : n < List.length dn) by (apply nth_error_Some; rewrite H; discriminate).
  assert (Hcl : nth_error (calls_of (run (ok_fw fw))) n = Some (Fit m d o e co cb))
    by (rewrite Hr, nth_error_app1; assumption).
  apply clean_fit_position in Hcl as (-> & -> & -> & ->).
  assert (Hi : nth_error dn 27 = Some (Initialize 22 5 29)).
  { rewrite <- (clean_initialize_position fw), Hr, nth_error_app1; [reflexivity | lia]. }
  exists 27. split; [lia|]. split; [exact Hi|].
  apply (propagate_normal fw 0 _ 27 _ Hi). unfold dn in *. lia.
Qed.

Lemma fit_after_initialize_witness :
  nth_error (calls_of (run fw0)) 31 = Some (Fit 22 5 30 10 29 31) /\
  exists k, k < 31 /\
    nth_error (calls_of (run fw0)) k = Some (Initialize 22 5 29) /\
    fw_raises fw0 k (Initialize 22 5 29) = None.
Proof.
  split; [unfold run; vm_compute; reflexivity|].
  apply (fit_after_initialize fw0 31 22 5 30 10 29 31).
  unfold run; vm_compute; reflexivity.
Defined.

(** The terminal layers have 10 units whatever class count [load_mnist]
    reports: the widths are written in the code, not taken from [nclass],
    so they match the targets' class count exactly when it is 10. *)
Theorem terminal_width_fixed (fw : framework) (g : globals) (s : state)
    (H : run fw = Ok g s) :
  exists ps,
    tree_of (heap s) (g_model g) = Some (ps, g_alphas g) /\
    g_nclass g = fw_mnist_nclass fw /\
    Forall (fun o => exists nm init act,
              lookup (heap s) o = Some (Affine 10 nm init act))
           (terminal_layers ps) /\
    (Forall (fun o => exists nm init act,
               lookup (heap s) o = Some (Affine (g_nclass g) nm init act))
            (terminal_layers ps) <-> g_nclass g = 10).
Proof.
  destruct fw as [raises returns nclass]. settle_run H.
  eexists. split; [reflexivity|]. split; [reflexivity|].
  split; [repeat constructor; do 3 eexists; reflexivity|].
  split.
  - intro Hf. inversion Hf as [| o l Ho Hrest]; subst.
    destruct Ho as (nm & init & act & Ho). cbn in Ho.
    injection Ho as Hnc. symmetry; exact Hnc.
  - intros ->. repeat constructor; do 3 eexists; reflexivity.
Qed.

Lemma terminal_width_fixed_witness :
  exists g s, run fw0 = Ok g s /\
  exists ps,
    tree_of (heap s) (g_model g) = Some (ps, g_alphas g) /\
    g_nclass g = fw_mnist_nclass fw0 /\
    Forall (fun o => exists nm init act,
              lookup (heap s) o = Some (Affine 10 nm init act))
           (terminal_layers ps) /\
    (Forall (fun o => exists nm init act,
               lookup (heap s) o = Some (Affine (g_nclass g) nm init act))
            (terminal_layers ps) <-> g_nclass g = 10).
Proof. witness_for (terminal_width_fixed fw0). Defined.

(** Every [Affine] layer the notebook creates is placed in the tree once:
    it occurs exactly once over all the paths, so no layer is left out and
    none is shared between paths. *)
Theorem layers_placed_once (fw : framework) (g : globals) (s : state)
    (H : run fw = Ok g s) :
  exists ps,
    tree_of (heap s) (g_model g) = Some (ps, g_alphas g) /\
    forall o, is_affine (heap s) o = true ->
      count_occ Nat.eq_dec (concat ps) o = 1.
Proof.
  settle_run H. eexists. split; [reflexivity|].
  intros o Ho.
  do 32 (destruct o as [| o]; [cbn in Ho; first [discriminate Ho | reflexivity] |]).
  destruct o; discriminate Ho.
Qed.

Lemma layers_placed_once_witness :
  exists g s, run fw0 = Ok g s /\
  exists ps,
    tree_of (heap s) (g_model g) = Some (ps, g_alphas g) /\
    forall o, is_affine (heap s) o = true ->
      count_occ Nat.eq_dec (concat ps) o = 1.
Proof. witness_for (layers_placed_once fw0). Defined.



(** The class count reported by [load_mnist] reaches only the two data
    iterators: two successful runs, whatever their class counts, create
    the same objects at the same places, the iterators apart, and bind the
    same objects to the notebook's variables. *)
Theorem topology_independent_of_nclass (fw1 fw2 : framework)
    (g1 g2 : globals) (s1 s2 : state)
    (H1 : run fw1 = Ok g1 s1) (H2 : run fw2 = Ok g2 s2) :
  length (heap s1) = length (heap s2) /\
  g_train_set g1 = g_train_set g2 /\ g_valid_set g1 = g_valid_set g2 /\
  g_model g1 = g_model g2 /\ g_cost g1 = g_cost g2 /\
  g_p1 g1 = g_p1 g2 /\ g_p2 g1 = g_p2 g2 /\ g_p3 g1 = g_p3 g2 /\
  (forall o, o <> g_train_set g1 -> o <> g_valid_set g1 ->
     lookup (heap s1) o = lookup (heap s2) o).
Proof.
  settle_run H1. settle_run H2.
  do 8 (split; [reflexivity|]).
  intros o Ht Hv.
  do 7 (destruct o as [| o]; [first [reflexivity | congruence] |]).
  reflexivity.
Qed.

Lemma topology_independent_of_nclass_witness :
  exists g1 s1 g2 s2,
  run fw0 = Ok g1 s1 /\ run (ok_fw fw0) = Ok g2 s2 /\
  length (heap s1) = length (heap s2) /\
  g_train_set g1 = g_train_set g2 /\ g_valid_set g1 = g_valid_set g2 /\
  g_model g1 = g_model g2 /\ g_cost g1 = g_cost g2 /\
  g_p1 g1 = g_p1 g2 /\ g_p2 g1 = g_p2 g2 /\ g_p3 g1 = g_p3 g2 /\
  (forall o, o <> g_train_set g1 -> o <> g_valid_set g1 ->
     lookup (heap s1) o = lookup (heap s2) o).
Proof.
  do 4 eexists. split; [unfold run; vm_compute; reflexivity|].
  split; [unfold run; vm_compute; reflexivity|].
  apply (topology_independent_of_nclass fw0 (ok_fw fw0));
    unfold run; vm_compute; reflexivity.
Defined.
